(** * Cairo weather dashboard: the data preparation of WEATHER.py

    A shallow embedding of the table operations of [src/WEATHER.py]:
    [load_data] with its calendar features and season label, the date-range
    filter, the monthly group-bys, the wet/dry month classification, the two
    temperature pivots, and the script's writes to [df_filtered].

    Conventions.
    - A float64 cell is an [option Q]: [None] is NaN (an empty CSV cell), and
      arithmetic on the present values is exact.  Rounding is not modelled.
    - A data frame is its list of rows, in index order, together with the
      labels of its columns where the code looks a label up.
    - A Python exception is a value of [Error]; code that can raise returns
      a [Result]. *)

From Stdlib Require Import ZArith QArith Qround List String Ascii Bool Lia Sorted.
From stdpp Require Import base option list gmap strings pretty.
Import ListNotations.

Local Open Scope string_scope.
Local Open Scope Z_scope.

(** ** Exceptions *)

Inductive Error : Type :=
  | KeyError (labels : list string)
  | ParseError (text : string).

Definition Result (A : Type) : Type := (Error + A)%type.

Definition ok {A} (a : A) : Result A := inr a.
Definition raise {A} (e : Error) : Result A := inl e.

Definition rbind {A B} (m : Result A) (k : A -> Result B) : Result B :=
  match m with
  | inl e => inl e
  | inr a => k a
  end.

#[global] Instance result_ret : MRet Result := @ok.
#[global] Instance result_bind : MBind Result := fun A B k m => rbind m k.
#[global] Instance result_fmap : FMap Result :=
  fun A B f m => rbind m (fun a => ok (f a)).

Fixpoint traverse {A B} (f : A -> Result B) (l : list A) : Result (list B) :=
  match l with
  | [] => ok []
  | a :: l' => b ← f a; bs ← traverse f l'; ok (b :: bs)
  end.

(** ** Calendar values *)

Record Timestamp : Type := mkTimestamp {
  ts_year : Z; ts_month : Z; ts_day : Z;
  ts_hour : Z; ts_minute : Z; ts_second : Z
}.

(** [datetime.date]: ordered by year, then month, then day. *)
Record Date : Type := mkDate { d_year : Z; d_month : Z; d_day : Z }.

Definition date_leb (a b : Date) : bool :=
  if d_year a <? d_year b then true
  else if d_year b <? d_year a then false
  else if d_month a <? d_month b then true
  else if d_month b <? d_month a then false
  else d_day a <=? d_day b.

Definition date_le (a b : Date) : Prop :=
  d_year a < d_year b \/
  (d_year a = d_year b /\
   (d_month a < d_month b \/ (d_month a = d_month b /\ d_day a <= d_day b))).

(** [Series.dt.date] *)
Definition dt_date (t : Timestamp) : Date :=
  mkDate (ts_year t) (ts_month t) (ts_day t).

(** Days since 1970-01-01 in the proleptic Gregorian calendar. *)
Definition days_from_civil (y m d : Z) : Z :=
  let y' := if m <=? 2 then y - 1 else y in
  let era := y' / 400 in
  let yoe := y' - era * 400 in
  let mp := if m <=? 2 then m + 9 else m - 3 in
  let doy := (153 * mp + 2) / 5 + d - 1 in
  let doe := yoe * 365 + yoe / 4 - yoe / 100 + doy in
  era * 146097 + doe - 719468.

(** [Series.dt.dayofweek]: Monday is 0 and Sunday is 6. *)
Definition dt_dayofweek (t : Timestamp) : Z :=
  (days_from_civil (ts_year t) (ts_month t) (ts_day t) + 3) mod 7.

Definition day_names : list string :=
  ["Monday"; "Tuesday"; "Wednesday"; "Thursday"; "Friday"; "Saturday"; "Sunday"].

Definition month_names : list string :=
  ["January"; "February"; "March"; "April"; "May"; "June";
   "July"; "August"; "September"; "October"; "November"; "December"].

(** [Series.dt.day_name()] *)
Definition dt_day_name (t : Timestamp) : string :=
  nth (Z.to_nat (dt_dayofweek t)) day_names "".

(** [Series.dt.month_name()] *)
Definition dt_month_name (t : Timestamp) : string :=
  nth (Z.to_nat (ts_month t - 1)) month_names "".

(** ** Tables *)

(** One line of the CSV file.  The [time] cell is always filled; the other
    cells may be empty. *)
Record RawRow : Type := mkRawRow {
  raw_time : string;
  raw_temperature : option Q;
  raw_humidity : option Q;
  raw_wind : option Q;
  raw_rain : option Q;
  raw_sunrise : option string;
  raw_sunset : option string
}.

(** The [day_of_week] column holds the index after [load_data] and the day
    name once the script has overwritten it on the filtered frame. *)
Inductive DowCell : Type :=
  | DowIndex (i : Z)
  | DowName (s : string).

Record Row : Type := mkRow {
  time : Timestamp;
  temperature : option Q;
  humidity : option Q;
  wind : option Q;
  rain : option Q;
  sunrise : option Timestamp;
  sunset : option Timestamp;
  month : Z;
  year : Z;
  day_of_week : DowCell;
  date : Date;
  season : string;
  MonthType : option string;
  hour : option Z;
  month_name : option string
}.

Record DataFrame : Type := mkDataFrame {
  columns : list string;
  rows : list Row
}.

(** ** load_data *)

Definition get_season (month : Z) : string :=
  if existsb (Z.eqb month) [12; 1; 2] then "Winter"
  else if existsb (Z.eqb month) [3; 4; 5] then "Spring"
  else if existsb (Z.eqb month) [6; 7; 8] then "Summer"
  else "Autumn".

Definition seasons : list string := ["Winter"; "Spring"; "Summer"; "Autumn"].

Definition csv_columns : list (string * (RawRow -> bool)) :=
  [ ("time", fun _ => true);
    ("temperature_2m_mean_°C", fun r => bool_decide (is_Some (raw_temperature r)));
    ("relative_humidity_2m_mean_%", fun r => bool_decide (is_Some (raw_humidity r)));
    ("wind_speed_10m_mean_km/h", fun r => bool_decide (is_Some (raw_wind r)));
    ("rain_sum_mm", fun r => bool_decide (is_Some (raw_rain r)));
    ("sunrise_iso8601", fun r => bool_decide (is_Some (raw_sunrise r)));
    ("sunset_iso8601", fun r => bool_decide (is_Some (raw_sunset r))) ].

(** [df.dropna(axis=1, how='all')]: a column stays when at least one of its
    cells is filled. *)
Definition dropna_columns (csv : list RawRow) : list string :=
  map fst (List.filter (fun c => existsb (snd c) csv) csv_columns).

Definition has_column (c : string) (cols : list string) : bool :=
  existsb (String.eqb c) cols.

Section Load.

(** [pd.to_datetime] on one filled cell: [None] when the text is not a
    timestamp. *)
Variable parse : string -> option Timestamp.

Definition to_datetime (s : string) : Result Timestamp :=
  match parse s with
  | Some t => ok t
  | None => raise (ParseError s)
  end.

(** An empty cell becomes NaT. *)
Definition to_datetime_opt (c : option string) : Result (option Timestamp) :=
  match c with
  | None => ok None
  | Some s => t ← to_datetime s; ok (Some t)
  end.

Definition derive_row (r : RawRow) (t : Timestamp)
    (rise set : option Timestamp) : Row :=
  {| time := t;
     temperature := raw_temperature r;
     humidity := raw_humidity r;
     wind := raw_wind r;
     rain := raw_rain r;
     sunrise := rise;
     sunset := set;
     month := ts_month t;
     year := ts_year t;
     day_of_week := DowIndex (dt_dayofweek t);
     date := dt_date t;
     season := get_season (ts_month t);
     MonthType := None;
     hour := None;
     month_name := None |}.

Fixpoint derive_rows (csv : list RawRow) (ts : list Timestamp)
    (rises sets : list (option Timestamp)) : list Row :=
  match csv, ts, rises, sets with
  | r :: csv', t :: ts', a :: rises', b :: sets' =>
      derive_row r t a b :: derive_rows csv' ts' rises' sets'
  | _, _, _, _ => []
  end.

Definition derived_columns : list string :=
  ["month"; "year"; "day_of_week"; "date"; "season"].

(** Lines 14-17: an optional timestamp column is converted when the
    frame has it. *)
Definition convert_optional (name : string) (cell : RawRow -> option string)
    (cols : list string) (csv : list RawRow)
    : Result (list (option Timestamp)) :=
  if has_column name cols
  then traverse to_datetime_opt (map cell csv)
  else ok (map (fun _ => None) csv).

Definition load_data (csv : list RawRow) : Result DataFrame :=
  let cols := dropna_columns csv in
  ts ← (if has_column "time" cols
        then traverse to_datetime (map raw_time csv)
        else raise (KeyError ["time"]));
  rises ← convert_optional "sunrise_iso8601" raw_sunrise cols csv;
  sets ← convert_optional "sunset_iso8601" raw_sunset cols csv;
  ok {| columns := cols ++ derived_columns;
        rows := derive_rows csv ts rises sets |}.

End Load.

(** A [parse] for timestamps written [YYYY-MM-DD], optionally followed by
    [T] or a blank and [HH:MM] or [HH:MM:SS]; the examples below load their
    tables with it. *)
Module Iso8601.

Definition digit (c : ascii) : option Z :=
  let n := Z.of_nat (nat_of_ascii c) in
  if (48 <=? n) && (n <=? 57) then Some (n - 48) else None.

Fixpoint number (acc : Z) (l : list ascii) : option Z :=
  match l with
  | [] => Some acc
  | c :: l' => d ← digit c; number (10 * acc + d) l'
  end.

Definition is_leap (y : Z) : bool :=
  ((y mod 4 =? 0) && negb (y mod 100 =? 0)) || (y mod 400 =? 0).

Definition days_in_month (y m : Z) : Z :=
  if m =? 2 then (if is_leap y then 29 else 28)
  else if existsb (Z.eqb m) [4; 6; 9; 11] then 30
  else 31.

Definition clock (l : list ascii) : option (Z * Z * Z) :=
  match l with
  | [] => Some (0, 0, 0)
  | [_; h1; h2; c1; m1; m2] =>
      h ← number 0 [h1; h2]; m ← number 0 [m1; m2];
      if (Ascii.eqb c1 ":") && (h <? 24) && (m <? 60)
      then Some (h, m, 0) else None
  | [_; h1; h2; c1; m1; m2; c2; s1; s2] =>
      h ← number 0 [h1; h2]; m ← number 0 [m1; m2]; s ← number 0 [s1; s2];
      if (Ascii.eqb c1 ":") && (Ascii.eqb c2 ":")
         && (h <? 24) && (m <? 60) && (s <? 60)
      then Some (h, m, s) else None
  | _ => None
  end.

Definition parse (s : string) : option Timestamp :=
  match list_ascii_of_string s with
  | y1 :: y2 :: y3 :: y4 :: a :: m1 :: m2 :: b :: d1 :: d2 :: rest =>
      y ← number 0 [y1; y2; y3; y4];
      m ← number 0 [m1; m2];
      d ← number 0 [d1; d2];
      '(h, mi, sec) ← clock rest;
      if (Ascii.eqb a "-") && (Ascii.eqb b "-")
         && (1 <=? m) && (m <=? 12) && (1 <=? d) && (d <=? days_in_month y m)
         && match rest with
            | [] => true
            | c :: _ => (Ascii.eqb c "T") || (Ascii.eqb c " ")
            end
      then Some (mkTimestamp y m d h mi sec)
      else None
  | _ => None
  end.

End Iso8601.

(** ** Float columns *)

Local Open Scope Q_scope.

Definition Qltb (x y : Q) : bool := negb (Qle_bool y x).

Definition Qsum (l : list Q) : Q := fold_right Qplus 0 l.

(** The filled cells of a column. *)
Definition dropna (l : list (option Q)) : list Q := omap id l.

(** [Series.sum()]: NaN cells are skipped; the sum of nothing is 0. *)
Definition nansum (l : list (option Q)) : Q := Qsum (dropna l).

(** [Series.mean()]: NaN cells are skipped; the mean of nothing is NaN. *)
Definition nanmean (l : list (option Q)) : option Q :=
  match dropna l with
  | [] => None
  | v :: vs => Some (Qsum (v :: vs) / inject_Z (Z.of_nat (length (v :: vs))))
  end.

Local Close Scope Q_scope.

(** ** The date-range filter (lines 68-71) *)

Definition in_range (lo hi : Date) (r : Row) : bool :=
  date_leb lo (date r) && date_leb (date r) hi.

Definition df_filtered (df : list Row) (date_range : list Date) : list Row :=
  match date_range with
  | [lo; hi] => List.filter (in_range lo hi) df
  | _ => df
  end.

(** ** groupby *)

Section GroupBy.

Context {A K : Type}.
Variable ltb : K -> K -> bool.
Variable eqb : K -> K -> bool.

Fixpoint insert_key (k : K) (ks : list K) : list K :=
  match ks with
  | [] => [k]
  | k' :: ks' =>
      if eqb k k' then ks
      else if ltb k k' then k :: ks
      else k' :: insert_key k ks'
  end.

(** The distinct keys in ascending order. *)
Definition sorted_keys (l : list K) : list K := fold_right insert_key [] l.

(** [df.groupby(key)]: one group per distinct key, keys ascending, each
    group holding its rows in the frame's order. *)
Definition groupby (key : A -> K) (df : list A) : list (K * list A) :=
  map (fun k => (k, List.filter (fun r => eqb (key r) k) df))
      (sorted_keys (map key df)).

End GroupBy.

(** ** Monthly aggregates (lines 119, 149-151, 166) *)




Definition monthly_rain (df : list Row) : list (Z * Q) :=
  map (fun g => (fst g, nansum (map rain (snd g))))
      (groupby Z.ltb Z.eqb month df).

Definition monthly_rainfall (df : list Row) : list (Z * Q) := monthly_rain df.

(** [monthly_rain.mean()]: the totals hold no NaN. *)
Definition series_mean (s : list (Z * Q)) : option Q :=
  nanmean (map (fun e => Some (snd e)) s).

(** [monthly_rain > monthly_rain.mean()]: a comparison with NaN is false. *)
Definition exceeds (mean : option Q) (v : Q) : bool :=
  match mean with
  | Some mu => Qltb mu v
  | None => false
  end.

Definition wet_months (df : list Row) : list Z :=
  let s := monthly_rain df in
  map fst (List.filter (fun e => exceeds (series_mean s) (snd e)) s).

Definition month_type (wet : list Z) (x : Z) : string :=
  if existsb (Z.eqb x) wet then "Wet" else "Dry".

Definition set_MonthType (v : string) (r : Row) : Row :=
  {| time := time r; temperature := temperature r; humidity := humidity r;
     wind := wind r; rain := rain r; sunrise := sunrise r; sunset := sunset r;
     month := month r; year := year r; day_of_week := day_of_week r;
     date := date r; season := season r;
     MonthType := Some v; hour := hour r; month_name := month_name r |}.

(** Line 151: [df_filtered['MonthType'] = df_filtered['month'].apply(...)]. *)
Definition assign_MonthType (df : list Row) : list Row :=
  let wet := wet_months df in
  map (fun r => set_MonthType (month_type wet (month r)) r) df.

(** ** Time features of the filtered frame (lines 203-205) *)

Definition set_time_features (r : Row) : Row :=
  {| time := time r; temperature := temperature r; humidity := humidity r;
     wind := wind r; rain := rain r; sunrise := sunrise r; sunset := sunset r;
     month := month r; year := year r;
     day_of_week := DowName (dt_day_name (time r));
     date := date r; season := season r; MonthType := MonthType r;
     hour := Some (ts_hour (time r));
     month_name := Some (dt_month_name (time r)) |}.

Definition assign_time_features (df : list Row) : list Row :=
  map set_time_features df.

(** ** Temperature pivots (lines 212-221 and 234-244) *)

(** Labels of the [day_of_week] column.  A column holds indices only or
    names only; indices are put first to make the order total. *)
Definition dow_ltb (a b : DowCell) : bool :=
  match a, b with
  | DowIndex i, DowIndex j => i <? j
  | DowName s, DowName t => String.ltb s t
  | DowIndex _, DowName _ => true
  | DowName _, DowIndex _ => false
  end.

Definition dow_eqb (a b : DowCell) : bool :=
  match a, b with
  | DowIndex i, DowIndex j => i =? j
  | DowName s, DowName t => String.eqb s t
  | _, _ => false
  end.

Definition dow_label (a : DowCell) : string :=
  match a with
  | DowIndex i => pretty i
  | DowName s => s
  end.

Record PivotTable (I C : Type) : Type := mkPivot {
  p_index : list I;
  p_columns : list C;
  p_values : list (list (option Q))
}.
Arguments mkPivot {I C} _ _ _.
Arguments p_index {I C} _.
Arguments p_columns {I C} _.
Arguments p_values {I C} _.

Section Pivot.

Context {I C : Type}.
Variables (iltb ieqb : I -> I -> bool) (cltb ceqb : C -> C -> bool).
Variable show : C -> string.
Variables (index : Row -> option I) (cols : Row -> option C).
Variable values : Row -> option Q.

Definition in_cell (i : I) (c : C) (r : Row) : bool :=
  match index r, cols r with
  | Some i', Some c' => ieqb i' i && ceqb c' c
  | _, _ => false
  end.

(** [aggfunc='mean'] on the group of one (index, column) pair. *)
Definition cell_mean (df : list Row) (i : I) (c : C) : option Q :=
  nanmean (map values (List.filter (in_cell i c) df)).

(** The key pairs that survive [dropna=True]: both keys are present and
    the group's mean is not NaN. *)
Definition observed (df : list Row) : list (I * C) :=
  omap (fun r =>
          match index r, cols r with
          | Some i, Some c =>
              match cell_mean df i c with
              | Some _ => Some (i, c)
              | None => None
              end
          | _, _ => None
          end) df.

(** [df.pivot_table(index=..., columns=..., values=..., aggfunc='mean')] *)
Definition pivot_table (df : list Row) : PivotTable I C :=
  let keys := observed df in
  let idx := sorted_keys iltb ieqb (map fst keys) in
  let cls := sorted_keys cltb ceqb (map snd keys) in
  mkPivot idx cls (map (fun i => map (cell_mean df i) cls) idx).

Fixpoint position (c : C) (cs : list C) : nat :=
  match cs with
  | [] => O
  | c' :: cs' => if ceqb c c' then O else S (position c cs')
  end.

(** [table[labels]]: the listed columns in the listed order; a label that
    is not a column raises [KeyError]. *)
Definition select_columns (labels : list C) (t : PivotTable I C)
    : Result (PivotTable I C) :=
  match List.filter (fun l => negb (existsb (ceqb l) (p_columns t))) labels with
  | [] =>
      ok (mkPivot (p_index t) labels
            (map (fun row =>
                    map (fun l => nth (position l (p_columns t)) row None) labels)
                 (p_values t)))
  | missing => raise (KeyError (map show missing))
  end.

End Pivot.

Definition days_order : list DowCell := map DowName day_names.
Definition months_order : list string := month_names.

(** Tab 1: hour by day of week. *)
Definition heatmap_hour_day (df : list Row)
    : Result (PivotTable Z DowCell) :=
  select_columns dow_eqb dow_label days_order
    (pivot_table Z.ltb Z.eqb dow_ltb dow_eqb
       hour (fun r => Some (day_of_week r)) temperature df).

(** Tab 2: day of week by month name. *)
Definition heatmap_day_month (df : list Row)
    : Result (PivotTable DowCell string) :=
  select_columns String.eqb id months_order
    (pivot_table dow_ltb dow_eqb String.ltb String.eqb
       (fun r => Some (day_of_week r)) month_name temperature df).

(** ** The script's frames as objects *)

(** Frames live in a store indexed by object identity.  [df[mask]] and
    [df.copy()] both build a new frame; the column assignments write to the
    frame [df_filtered] is bound to. *)
Record Session : Type := mkSession {
  store : gmap nat (list Row);
  var_df : nat;
  var_df_filtered : nat
}.

Definition run_filter (h : gmap nat (list Row)) (df : nat)
    (date_range : list Date) : option Session :=
  full ← h !! df;
  let l := fresh (dom h) in
  Some (mkSession (<[l := df_filtered full date_range]> h) df l).

Definition run_assign (f : list Row -> list Row) (s : Session) : Session :=
  mkSession (alter f (var_df_filtered s) (store s)) (var_df s) (var_df_filtered s).

(** Lines 68-71, 151 and 203-205 in sequence. *)
Definition run_script (h : gmap nat (list Row)) (df : nat)
    (date_range : list Date) : option Session :=
  s ← run_filter h df date_range;
  Some (run_assign assign_time_features (run_assign assign_MonthType s)).

(** ** The memoised loader *)

Section Cache.

Variable parse : string -> option Timestamp.


End Cache.

(** ** Sidebar: the default date range (lines 49-54) *)







(** ** Key metrics (lines 77-83) *)





Definition avg_humidity (df : list Row) : option Q :=
  nanmean (map humidity df).


(** ** Recent conditions (lines 87-89) *)

(** The frame with the row labels [read_csv] gives it: 0, 1, 2, ... *)
Definition with_index (df : list Row) : list (nat * Row) :=
  combine (seq 0 (length df)) df.

(** The date-range filter keeps the label of every row it keeps. *)
Definition df_filtered_indexed (df : list (nat * Row)) (date_range : list Date)
    : list (nat * Row) :=
  match date_range with
  | [lo; hi] => List.filter (fun e => in_range lo hi (snd e)) df
  | _ => df
  end.

(** [df.tail(n)] *)
Definition df_tail {A} (n : nat) (l : list A) : list A :=
  skipn (length l - n) l.

Fixpoint insert_desc {A} (e : nat * A) (l : list (nat * A)) : list (nat * A) :=
  match l with
  | [] => [e]
  | e' :: l' => if Nat.ltb (fst e') (fst e) then e :: l else e' :: insert_desc e l'
  end.

(** [df.sort_index(ascending=False)] *)
Definition sort_index_desc {A} (l : list (nat * A)) : list (nat * A) :=
  fold_right insert_desc [] l.

Definition recent_columns (r : Row)
    : Timestamp * option Q * option Q * option Q * option Q :=
  (time r, temperature r, humidity r, wind r, rain r).

Definition recent_conditions (df : list (nat * Row))
    : list (nat * (Timestamp * option Q * option Q * option Q * option Q)) :=
  sort_index_desc (df_tail 5 (map (fun e => (fst e, recent_columns (snd e))) df)).

(** Row labels in ascending order. *)
Definition label_lt {A} (a b : nat * A) : Prop := (fst a < fst b)%nat.

(** ** Humidity in wet and dry months (line 153) *)



(** ** Sample tables *)

Definition sample_row (t : string) (temp hum wnd rn : option Q) : RawRow :=
  mkRawRow t temp hum wnd rn None None.

(** Five days: two in January, one in February, two in July. *)
Definition sample_csv : list RawRow :=
  [ sample_row "2024-01-01" (Some 14%Q) (Some 60%Q) (Some 10%Q) (Some 5%Q);
    sample_row "2024-01-03" (Some 16%Q) (Some 62%Q) (Some 12%Q) None;
    sample_row "2024-02-10" (Some 17%Q) (Some 55%Q) None (Some 15%Q);
    sample_row "2024-07-15" (Some 35%Q) (Some 30%Q) (Some 9%Q) None;
    sample_row "2024-07-16" None (Some 31%Q) (Some 8%Q) None ].

Definition frame_rows (f : Result DataFrame) : list Row :=
  match f with
  | inr df => rows df
  | inl _ => []
  end.

Definition sample_df : list Row := frame_rows (load_data Iso8601.parse sample_csv).

Definition sample_frame : DataFrame :=
  match load_data Iso8601.parse sample_csv with
  | inr df => df
  | inl _ => mkDataFrame [] []
  end.



(** Two months with totals 5 and 15. *)
Definition two_months_df : list Row :=
  frame_rows (load_data Iso8601.parse
    [ sample_row "2024-03-01" None None None (Some 5%Q);
      sample_row "2024-04-01" None None None (Some 15%Q) ]).


(** A Monday and a Wednesday. *)
Definition monday_wednesday_df : list Row :=
  frame_rows (load_data Iso8601.parse
    [ sample_row "2024-01-01" (Some 20%Q) None None None;
      sample_row "2024-01-03" (Some 22%Q) None None None ]).

(** One day in each month of 2024, covering the seven days of the week. *)
Definition full_year_df : list Row :=
  frame_rows (load_data Iso8601.parse
    [ sample_row "2024-01-01T06:00" (Some 14%Q) None None None;
      sample_row "2024-02-06T06:00" (Some 15%Q) None None None;
      sample_row "2024-03-06T06:00" (Some 18%Q) None None None;
      sample_row "2024-04-04T06:00" (Some 22%Q) None None None;
      sample_row "2024-05-03T12:00" (Some 27%Q) None None None;
      sample_row "2024-06-01T12:00" (Some 33%Q) None None None;
      sample_row "2024-07-07T12:00" (Some 35%Q) None None None;
      sample_row "2024-08-05T12:00" (Some 34%Q) None None None;
      sample_row "2024-09-03T18:00" (Some 31%Q) None None None;
      sample_row "2024-10-02T18:00" (Some 27%Q) None None None;
      sample_row "2024-11-07T18:00" (Some 21%Q) None None None;
      sample_row "2024-12-06T18:00" (Some 16%Q) None None None ]).

(** ** Vocabulary of the statements *)


(** What [load_data] makes of one CSV line. *)
Definition derived (parse : string -> option Timestamp)
    (raw : RawRow) (r : Row) : Prop :=
  parse (raw_time raw) = Some (time r) ∧
  temperature r = raw_temperature raw ∧ humidity r = raw_humidity raw ∧
  wind r = raw_wind raw ∧ rain r = raw_rain raw ∧
  sunrise r = raw_sunrise raw ≫= parse ∧
  sunset r = raw_sunset raw ≫= parse ∧
  month r = ts_month (time r) ∧
  year r = ts_year (time r) ∧
  day_of_week r = DowIndex (dt_dayofweek (time r)) ∧
  date r = dt_date (time r) ∧
  season r = get_season (month r).




#[global] Instance Qlt_dec (x y : Q) : Decision (x < y)%Q.
Proof.
  destruct (Qlt_le_dec x y) as [H|H]; [left; exact H | right].
  intros Hlt. exact (Qlt_not_le _ _ Hlt H).
Defined.

(** * Properties *)

(** ** Helpers: booleans against propositions *)

Lemma date_leb_le (a b : Date) : date_leb a b = true <-> date_le a b.
Proof.
  unfold date_leb, date_le.
  destruct (Z.ltb_spec (d_year a) (d_year b)); [intuition lia |].
  destruct (Z.ltb_spec (d_year b) (d_year a)); [intuition lia |].
  destruct (Z.ltb_spec (d_month a) (d_month b)); [intuition lia |].
  destruct (Z.ltb_spec (d_month b) (d_month a)); [intuition lia |].
  rewrite Z.leb_le. intuition lia.
Qed.

#[global] Instance date_le_dec (a b : Date) : Decision (date_le a b).
Proof. unfold date_le. apply _. Defined.

Lemma filter_bool_prop {A} (f : A -> bool) (P : A -> Prop)
    `{!∀ x, Decision (P x)} (l : list A) :
  (∀ x, f x = true <-> P x) -> List.filter f l = filter P l.
Proof.
  intros Hf. induction l as [|x l IH]; [reflexivity |].
  simpl. rewrite filter_cons, IH.
  destruct (f x) eqn:Hx, (decide (P x)) as [Hp|Hp]; try reflexivity.
  - apply Hf in Hx. contradiction.
  - apply Hf in Hp. congruence.
Qed.

Lemma in_range_spec (lo hi : Date) (r : Row) :
  in_range lo hi r = true <-> date_le lo (date r) ∧ date_le (date r) hi.
Proof.
  unfold in_range. rewrite andb_true_iff, !date_leb_le. reflexivity.
Qed.


(** ** The season label *)

(** C3: on the months 1..12, [get_season] answers with one of the four
    season labels, and each label is given to exactly its bucket of the
    fixed mapping: 12, 1, 2 are Winter; 3, 4, 5 are Spring; 6, 7, 8 are
    Summer; the remaining 9, 10, 11 are Autumn. *)
Theorem get_season_partition (m : Z) :
  1 <= m <= 12 ->
  get_season m ∈ seasons ∧
  (get_season m = "Winter" <-> m ∈ [12; 1; 2]) ∧
  (get_season m = "Spring" <-> m ∈ [3; 4; 5]) ∧
  (get_season m = "Summer" <-> m ∈ [6; 7; 8]) ∧
  (get_season m = "Autumn" <-> m ∈ [9; 10; 11]).
Proof.
  intros Hm.
  assert (Hcases : m ∈ [1; 2; 3; 4; 5; 6; 7; 8; 9; 10; 11; 12]).
  { rewrite !elem_of_cons. lia. }
  unfold seasons.
  repeat (apply elem_of_cons in Hcases as [-> | Hcases]);
    [.. | by apply elem_of_nil in Hcases];
    vm_compute get_season; rewrite !elem_of_cons, !elem_of_nil;
    intuition (discriminate || lia || auto).
Qed.

Lemma get_season_partition_witness :
  get_season 7 ∈ seasons ∧
  (get_season 7 = "Winter" <-> 7 ∈ [12; 1; 2]) ∧
  (get_season 7 = "Spring" <-> 7 ∈ [3; 4; 5]) ∧
  (get_season 7 = "Summer" <-> 7 ∈ [6; 7; 8]) ∧
  (get_season 7 = "Autumn" <-> 7 ∈ [9; 10; 11]).
Proof. apply (get_season_partition 7). lia. Defined.

(** ** The date-range filter *)

(** C2: with two bounds the filter keeps, in order, exactly the rows whose
    date lies between the bounds, both included; with any other number of
    bounds it returns the rows as they are. *)
Theorem df_filtered_inclusive (df : list Row) :
  (∀ lo hi,
     df_filtered df [lo; hi]
     = filter (λ r, date_le lo (date r) ∧ date_le (date r) hi) df) ∧
  (∀ date_range, length date_range ≠ 2%nat -> df_filtered df date_range = df).
Proof.
  split.
  - intros lo hi. simpl.
    apply filter_bool_prop. intros r. apply in_range_spec.
  - intros date_range Hlen.
    destruct date_range as [|a [|b [|c l]]]; simpl in *;
      try reflexivity. congruence.
Qed.

Lemma df_filtered_inclusive_witness :
  df_filtered sample_df [mkDate 2024 1 3] = sample_df.
Proof.
  apply (proj2 (df_filtered_inclusive sample_df) [mkDate 2024 1 3]).
  simpl. lia.
Defined.

(** ** Loading *)

Lemma traverse_inr {A B} (f : A -> Result B) (l : list A) (bs : list B) :
  traverse f l = inr bs -> Forall2 (λ a b, f a = inr b) l bs.
Proof.
  revert bs. induction l as [|a l IH]; intros bs; simpl.
  - intros [= <-]. constructor.
  - unfold mbind, result_bind, rbind.
    destruct (f a) as [e|b] eqn:Ha; [discriminate |].
    destruct (traverse f l) as [e|bs'] eqn:Hl; [discriminate |].
    intros [= <-]. constructor; [assumption | by apply IH].
Qed.



Lemma has_time_column (csv : list RawRow) :
  has_column "time" (dropna_columns csv) = negb (bool_decide (csv = [])).
Proof. destruct csv; reflexivity. Qed.

Lemma has_sunrise_column (csv : list RawRow) :
  has_column "sunrise_iso8601" (dropna_columns csv)
  = existsb (λ r, bool_decide (is_Some (raw_sunrise r))) csv.
Proof.
  unfold dropna_columns, csv_columns. simpl.
  repeat match goal with
         | |- context [if existsb ?f csv then _ else _] =>
             destruct (existsb f csv)
         end; reflexivity.
Qed.

Lemma has_sunset_column (csv : list RawRow) :
  has_column "sunset_iso8601" (dropna_columns csv)
  = existsb (λ r, bool_decide (is_Some (raw_sunset r))) csv.
Proof.
  unfold dropna_columns, csv_columns. simpl.
  repeat match goal with
         | |- context [if existsb ?f csv then _ else _] =>
             destruct (existsb f csv)
         end; reflexivity.
Qed.

Section LoadFacts.

Variable parse : string -> option Timestamp.

Lemma to_datetime_inr (s : string) (t : Timestamp) :
  to_datetime parse s = inr t <-> parse s = Some t.
Proof.
  unfold to_datetime. destruct (parse s); split; intros [=]; by subst.
Qed.




Lemma derive_rows_derived (csv : list RawRow) (ts : list Timestamp) :
  Forall2 (λ r t, parse (raw_time r) = Some t) csv ts ->
  Forall2 (derived parse) csv
    (derive_rows csv ts (map (λ r, raw_sunrise r ≫= parse) csv)
                        (map (λ r, raw_sunset r ≫= parse) csv)).
Proof.
  induction 1 as [|r t csv ts Hrt _ IH]; simpl; constructor; [| exact IH].
  unfold derived. simpl. by repeat split.
Qed.

End LoadFacts.





(** ** The original frame is never written *)

(** C8: when [df] is bound to a frame, the script runs; the filtered frame
    is a new object, and after the filter and the assignments of MonthType,
    hour, day name and month name the frame of [df], like every object
    other than the filtered frame, is what it was. *)
Theorem script_preserves_df (h : gmap nat (list Row)) (df : nat)
    (date_range : list Date) (full : list Row) :
  h !! df = Some full ->
  ∃ s, run_script h df date_range = Some s ∧
       var_df s = df ∧
       var_df_filtered s ≠ df ∧
       store s !! df = Some full ∧
       (∀ l, l ≠ var_df_filtered s -> store s !! l = h !! l) ∧
       store s !! var_df_filtered s
       = Some (assign_time_features
                 (assign_MonthType (df_filtered full date_range))).
Proof.
  intros Hdf. unfold run_script, run_filter. rewrite Hdf. simpl.
  assert (Hfresh : h !! fresh (dom h) = None).
  { apply not_elem_of_dom. apply is_fresh. }
  assert (Hne : fresh (dom h) ≠ df) by congruence.
  eexists. split; [reflexivity |]. simpl.
  split; [reflexivity |]. split; [exact Hne |]. split; [| split].
  - rewrite !lookup_alter_ne, lookup_insert_ne by done. exact Hdf.
  - intros l Hl. by rewrite !lookup_alter_ne, lookup_insert_ne.
  - by rewrite !lookup_alter_eq, lookup_insert_eq.
Qed.

Lemma script_preserves_df_witness :
  ∃ s, run_script {[ 7%nat := sample_df ]} 7%nat [mkDate 2024 1 2; mkDate 2024 7 15]
       = Some s ∧
       var_df s = 7%nat ∧
       var_df_filtered s ≠ 7%nat ∧
       store s !! 7%nat = Some sample_df ∧
       (∀ l, l ≠ var_df_filtered s ->
             store s !! l = ({[ 7%nat := sample_df ]} : gmap nat (list Row)) !! l) ∧
       store s !! var_df_filtered s
       = Some (assign_time_features
                 (assign_MonthType
                    (df_filtered sample_df [mkDate 2024 1 2; mkDate 2024 7 15]))).
Proof.
  apply (script_preserves_df {[ 7%nat := sample_df ]} 7%nat
           [mkDate 2024 1 2; mkDate 2024 7 15] sample_df).
  apply lookup_singleton_eq.
Defined.

(** ** Group keys *)

Section KeysFacts.

Context {K : Type} (ltb eqb : K -> K -> bool) (R : K -> K -> Prop).
Hypothesis eqb_eq : ∀ a b, eqb a b = true <-> a = b.
Hypothesis ltb_lt : ∀ a b, ltb a b = true <-> R a b.
Hypothesis R_trans : ∀ a b c, R a b -> R b c -> R a c.
Hypothesis R_total : ∀ a b, a = b ∨ R a b ∨ R b a.

Lemma elem_of_insert_key (x k : K) (ks : list K) :
  x ∈ insert_key ltb eqb k ks <-> x = k ∨ x ∈ ks.
Proof using eqb_eq.
  induction ks as [|k' ks IH]; simpl.
  - rewrite list_elem_of_singleton, elem_of_nil. tauto.
  - destruct (eqb k k') eqn:E.
    + apply eqb_eq in E as ->. rewrite elem_of_cons. tauto.
    + destruct (ltb k k'); rewrite !elem_of_cons; [tauto |].
      rewrite IH. tauto.
Qed.

Lemma elem_of_sorted_keys (x : K) (l : list K) :
  x ∈ sorted_keys ltb eqb l <-> x ∈ l.
Proof using eqb_eq.
  induction l as [|k l IH]; simpl; [reflexivity |].
  rewrite elem_of_insert_key, IH, elem_of_cons. reflexivity.
Qed.

Lemma insert_key_sorted (k : K) (ks : list K) :
  StronglySorted R ks -> StronglySorted R (insert_key ltb eqb k ks).
Proof using eqb_eq ltb_lt R_trans R_total.
  induction 1 as [|k' ks Hs IH Hall]; simpl.
  - repeat constructor.
  - destruct (eqb k k') eqn:E; [by constructor |].
    destruct (ltb k k') eqn:L.
    + apply ltb_lt in L. constructor; [by constructor |].
      constructor; [exact L |].
      eapply Forall_impl; [exact Hall |]. intros y Hy. by eapply R_trans.
    + constructor; [exact IH |].
      apply Forall_forall. intros y Hy.
      apply elem_of_insert_key in Hy as [-> | Hy].
      * destruct (R_total k k') as [Heq | [Hlt | Hgt]]; [| | exact Hgt].
        -- apply eqb_eq in Heq. congruence.
        -- apply ltb_lt in Hlt. congruence.
      * rewrite Forall_forall in Hall. by apply Hall.
Qed.

Lemma sorted_keys_sorted (l : list K) :
  StronglySorted R (sorted_keys ltb eqb l).
Proof using eqb_eq ltb_lt R_trans R_total.
  induction l as [|k l IH]; simpl; [constructor |].
  by apply insert_key_sorted.
Qed.

Lemma groupby_keys {A} (key : A -> K) (df : list A) :
  map fst (groupby ltb eqb key df) = sorted_keys ltb eqb (map key df).
Proof using Type.
  unfold groupby. rewrite map_map. simpl. apply map_id.
Qed.

End KeysFacts.


Lemma month_keys_sorted (l : list Z) :
  StronglySorted Z.lt (sorted_keys Z.ltb Z.eqb l).
Proof.
  apply sorted_keys_sorted.
  - apply Z.eqb_eq.
  - apply Z.ltb_lt.
  - intros a b c. apply Z.lt_trans.
  - intros a b. lia.
Qed.







(** ** Sums and means *)










(** ** Wet and dry months *)








(** The totals 5 and 15 have mean 10: the month with 15 is Wet, the month
    with 5 is Dry. *)
Example wet_dry_5_15 :
  monthly_rain two_months_df = [(3, 5%Q); (4, 15%Q)] ∧
  map MonthType (assign_MonthType two_months_df) = [Some "Dry"; Some "Wet"].
Proof. split; reflexivity. Qed.

(** ** Missing rainfall *)








(** ** Temperature pivots *)

Section SelectFacts.

Context {I C : Type} (ceqb : C -> C -> bool) (show : C -> string).

(** A selection that returns has the listed labels as its columns, in the
    listed order, and the rows of the table it was taken from. *)
Lemma select_columns_inr (labels : list C) (t t' : PivotTable I C) :
  select_columns ceqb show labels t = inr t' ->
  p_columns t' = labels ∧ p_index t' = p_index t ∧
  Forall (λ l, existsb (ceqb l) (p_columns t) = true) labels.
Proof.
  unfold select_columns.
  destruct (List.filter _ labels) as [|l ls] eqn:Hmiss; [| discriminate].
  intros [= <-]. simpl. repeat split.
  apply Forall_forall. intros l Hl.
  destruct (existsb (ceqb l) (p_columns t)) eqn:E; [reflexivity |].
  assert (Hin : In l []); [| destruct Hin].
  rewrite <- Hmiss. apply filter_In.
  split; [by apply list_elem_of_In | by rewrite E].
Qed.

(** A label that is no column of the table makes the selection raise. *)
Lemma select_columns_inl (labels : list C) (t : PivotTable I C) (l : C) :
  l ∈ labels -> existsb (ceqb l) (p_columns t) = false ->
  ∃ missing, select_columns ceqb show labels t = inl (KeyError missing).
Proof.
  intros Hl Hno. unfold select_columns.
  destruct (List.filter _ labels) as [|l' ls] eqn:Hmiss; [| by eexists].
  assert (Hin : In l []); [| destruct Hin].
  rewrite <- Hmiss. apply filter_In.
  split; [by apply list_elem_of_In | by rewrite Hno].
Qed.

End SelectFacts.

(** C4: on a frame with rows on a Monday and a Wednesday only, both pivots
    raise [KeyError] on the labels that were not observed, where the
    specification has them present as missing cells; on a frame that covers every day name
    and every month, the hour-by-day pivot has its columns Monday-first with
    missing cells for the unobserved combinations, and the day-by-month pivot
    has its columns January-first but its day rows in alphabetical order. *)
Theorem heatmap_unobserved_labels :
  heatmap_hour_day (assign_time_features monday_wednesday_df)
  = inl (KeyError ["Tuesday"; "Thursday"; "Friday"; "Saturday"; "Sunday"]) ∧
  heatmap_day_month (assign_time_features monday_wednesday_df)
  = inl (KeyError ["February"; "March"; "April"; "May"; "June"; "July";
                   "August"; "September"; "October"; "November"; "December"]) ∧
  (p_columns <$> heatmap_hour_day (assign_time_features full_year_df))
  = inr days_order ∧
  (p_values <$> heatmap_hour_day (assign_time_features full_year_df))
  = inr [ [Some 14%Q; Some 15%Q; Some 18%Q; Some 22%Q; None; None; None];
          [Some 34%Q; None; None; None; Some 27%Q; Some 33%Q; Some 35%Q];
          [None; Some 31%Q; Some 27%Q; Some 21%Q; Some 16%Q; None; None] ] ∧
  (p_columns <$> heatmap_day_month (assign_time_features full_year_df))
  = inr months_order ∧
  (p_index <$> heatmap_day_month (assign_time_features full_year_df))
  = inr (map DowName ["Friday"; "Monday"; "Saturday"; "Sunday";
                      "Thursday"; "Tuesday"; "Wednesday"]).
Proof. repeat split; vm_compute; reflexivity. Qed.




(** * Further properties of the script *)

(** ** Seasons outside the calendar *)

(** X1: [get_season] answers with one of the four labels on every integer,
    and an integer that is no month number, below 1 or above 12, falls in
    the else branch and is labelled Autumn. *)
Theorem get_season_total (m : Z) :
  get_season m ∈ seasons ∧ (m < 1 ∨ 12 < m -> get_season m = "Autumn").
Proof.
  unfold get_season, seasons. simpl.
  repeat match goal with
         | |- context [m =? ?k] => destruct (Z.eqb_spec m k); simpl
         end;
    (split; [rewrite !elem_of_cons; tauto | try reflexivity; lia]).
Qed.

Lemma get_season_total_witness : get_season 13 = "Autumn".
Proof. apply (proj2 (get_season_total 13)). right. lia. Defined.

(** ** More on the date-range filter *)

Lemma date_le_refl (a : Date) : date_le a a.
Proof. unfold date_le. lia. Qed.

Lemma date_le_trans (a b c : Date) : date_le a b -> date_le b c -> date_le a c.
Proof. unfold date_le. lia. Qed.

Lemma date_le_total (a b : Date) : date_le a b ∨ date_le b a.
Proof. unfold date_le. lia. Qed.

Lemma df_filtered_as_filter (df : list Row) (lo hi : Date) :
  df_filtered df [lo; hi]
  = filter (λ r, date_le lo (date r) ∧ date_le (date r) hi) df.
Proof. simpl. apply filter_bool_prop. intros r. apply in_range_spec. Qed.

(** X2: the filter never adds, repeats or reorders rows (its result is a
    sublist of the frame), every row it returns under two bounds lies within
    them, and filtering the result again with the same range changes
    nothing. *)
Theorem df_filtered_sound (df : list Row) (date_range : list Date) :
  df_filtered df date_range `sublist_of` df ∧
  df_filtered (df_filtered df date_range) date_range = df_filtered df date_range ∧
  (∀ lo hi, Forall (λ r, date_le lo (date r) ∧ date_le (date r) hi)
                   (df_filtered df [lo; hi])).
Proof.
  split; [| split].
  - destruct date_range as [|a [|b [|c l]]]; try reflexivity.
    rewrite df_filtered_as_filter. apply sublist_filter.
  - destruct date_range as [|a [|b [|c l]]]; try reflexivity.
    rewrite !df_filtered_as_filter.
    induction df as [|r df IH]; [reflexivity |].
    rewrite filter_cons. case_decide as Hr; [| exact IH].
    rewrite filter_cons, decide_True by exact Hr. by f_equal.
  - intros lo hi. rewrite df_filtered_as_filter.
    apply Forall_forall. intros r Hr. by apply list_elem_of_filter in Hr as [Hr _].
Qed.

(** X3: narrowing composes: filtering with a range and then with a range
    inside it gives what filtering with the inner range gives. *)
Theorem df_filtered_nested (df : list Row) (lo hi lo' hi' : Date) :
  date_le lo' lo -> date_le hi hi' ->
  df_filtered (df_filtered df [lo'; hi']) [lo; hi] = df_filtered df [lo; hi].
Proof.
  intros Hlo Hhi. rewrite !df_filtered_as_filter.
  induction df as [|r df IH]; [reflexivity |].
  rewrite !filter_cons.
  destruct (decide (date_le lo (date r) ∧ date_le (date r) hi)) as [[H1 H2]|Hout].
  - rewrite decide_True
      by (split; [by eapply date_le_trans | by eapply date_le_trans]).
    rewrite filter_cons, decide_True by done. by f_equal.
  - case_decide; [| exact IH].
    rewrite filter_cons, decide_False by exact Hout. exact IH.
Qed.

Lemma df_filtered_nested_witness :
  df_filtered (df_filtered sample_df [mkDate 2024 1 1; mkDate 2024 12 31])
              [mkDate 2024 1 2; mkDate 2024 7 15]
  = df_filtered sample_df [mkDate 2024 1 2; mkDate 2024 7 15].
Proof.
  apply (df_filtered_nested sample_df (mkDate 2024 1 2) (mkDate 2024 7 15)
           (mkDate 2024 1 1) (mkDate 2024 12 31)).
  - unfold date_le. simpl. lia.
  - unfold date_le. simpl. lia.
Defined.

(** X4: a range whose start lies after its end selects no row. *)
Theorem df_filtered_inverted (df : list Row) (lo hi : Date) :
  ¬ date_le lo hi -> df_filtered df [lo; hi] = [].
Proof.
  intros Hinv. rewrite df_filtered_as_filter.
  induction df as [|r df IH]; [reflexivity |].
  rewrite filter_cons, decide_False; [exact IH |].
  intros [H1 H2]. apply Hinv. by eapply date_le_trans.
Qed.

Lemma df_filtered_inverted_witness :
  df_filtered sample_df [mkDate 2024 7 15; mkDate 2024 1 2] = [].
Proof.
  apply (df_filtered_inverted sample_df (mkDate 2024 7 15) (mkDate 2024 1 2)).
  unfold date_le. simpl. lia.
Defined.

(** ** The loaded frame *)

Section LoadedFrame.

Variable parse : string -> option Timestamp.

Lemma traverse_opt_inr (l : list (option string)) (bs : list (option Timestamp)) :
  traverse (to_datetime_opt parse) l = inr bs -> bs = map (λ c, c ≫= parse) l.
Proof.
  intros H. apply traverse_inr in H.
  induction H as [|c b l bs Hcb _ IH]; [reflexivity |].
  simpl. f_equal; [| exact IH].
  destruct c as [s|]; simpl in *.
  - unfold mbind, result_bind, rbind, to_datetime in Hcb.
    destruct (parse s); [by injection Hcb as <- | discriminate].
  - by injection Hcb as <-.
Qed.

Lemma convert_optional_inr (name : string) (cell : RawRow -> option string)
    (csv : list RawRow) (bs : list (option Timestamp)) :
  has_column name (dropna_columns csv)
  = existsb (λ r, bool_decide (is_Some (cell r))) csv ->
  convert_optional parse name cell (dropna_columns csv) csv = inr bs ->
  bs = map (λ r, cell r ≫= parse) csv.
Proof.
  intros Hc. unfold convert_optional. rewrite Hc. clear Hc.
  destruct (existsb _ csv) eqn:Hcol.
  - intros H. apply traverse_opt_inr in H. by rewrite map_map in H.
  - intros [= <-]. apply map_ext_in. intros r Hr.
    destruct (cell r) as [s|] eqn:Hs; [| reflexivity].
    exfalso. apply not_true_iff_false in Hcol. apply Hcol.
    apply existsb_exists. exists r. split; [exact Hr |].
    rewrite Hs. by apply bool_decide_eq_true.
Qed.

Lemma load_data_inr (csv : list RawRow) (df : DataFrame) :
  load_data parse csv = inr df ->
  csv ≠ [] ∧
  columns df = (dropna_columns csv ++ derived_columns)%list ∧
  Forall2 (derived parse) csv (rows df).
Proof.
  unfold load_data. rewrite has_time_column.
  destruct csv as [|r0 csv0] eqn:Hcsv; [discriminate |]. rewrite <- Hcsv.
  rewrite bool_decide_eq_false_2 by (rewrite Hcsv; discriminate).
  simpl negb. cbv iota. unfold mbind at 1, result_bind at 1, rbind at 1.
  destruct (traverse (to_datetime parse) (map raw_time csv)) as [e|ts] eqn:Hts;
    [discriminate |].
  unfold mbind at 1, result_bind at 1, rbind at 1.
  destruct (convert_optional parse "sunrise_iso8601" raw_sunrise _ csv)
    as [e|rises] eqn:Hrises; [discriminate |].
  unfold mbind at 1, result_bind at 1, rbind at 1.
  destruct (convert_optional parse "sunset_iso8601" raw_sunset _ csv)
    as [e|sets] eqn:Hsets; [discriminate |].
  intros [= <-]. simpl.
  split; [rewrite Hcsv; discriminate |]. split; [reflexivity |].
  apply convert_optional_inr in Hrises; [| apply has_sunrise_column].
  apply convert_optional_inr in Hsets; [| apply has_sunset_column].
  subst rises sets. apply derive_rows_derived.
  apply traverse_inr, Forall2_fmap_l in Hts.
  eapply Forall2_impl; [exact Hts |]. intros r t. apply to_datetime_inr.
Qed.

End LoadedFrame.

Lemma elem_of_dropna_columns (csv : list RawRow) (c : string) :
  c ∈ dropna_columns csv <->
  ∃ cell, (c, cell) ∈ csv_columns ∧ ∃ r, r ∈ csv ∧ cell r = true.
Proof.
  unfold dropna_columns. rewrite list_elem_of_In, in_map_iff. split.
  - intros ([c' cell] & <- & H). apply filter_In in H as [Hin Hex].
    exists cell. split; [by apply list_elem_of_In |].
    apply existsb_exists in Hex as (r & Hr & Hcell).
    exists r. split; [by apply list_elem_of_In | exact Hcell].
  - intros (cell & Hin & r & Hr & Hcell). exists (c, cell).
    split; [reflexivity |]. apply filter_In.
    split; [by apply list_elem_of_In |]. apply existsb_exists.
    exists r. split; [by apply list_elem_of_In | exact Hcell].
Qed.

(** X5: a load that returns gives a frame that is never empty, with one row
    per line of the file, in the file's order; its columns are the five
    derived ones together with exactly those columns of the file that have a
    filled cell in some line, so a column that is empty throughout is not in
    the frame. *)
Theorem load_data_frame (parse : string -> option Timestamp)
    (csv : list RawRow) (df : DataFrame) :
  load_data parse csv = inr df ->
  rows df ≠ [] ∧
  length (rows df) = length csv ∧
  map (λ r, (temperature r, humidity r, wind r, rain r)) (rows df)
  = map (λ r, (raw_temperature r, raw_humidity r, raw_wind r, raw_rain r)) csv ∧
  (∀ c, c ∈ columns df <->
        c ∈ derived_columns ∨
        ∃ cell, (c, cell) ∈ csv_columns ∧ ∃ r, r ∈ csv ∧ cell r = true).
Proof.
  intros Hload. apply load_data_inr in Hload as (Hne & Hcols & Hrows).
  assert (Hlen : length (rows df) = length csv).
  { symmetry. by eapply Forall2_length. }
  split; [| split; [exact Hlen | split]].
  - intros Hnil. rewrite Hnil in Hlen. by destruct csv.
  - clear Hlen Hne Hcols. induction Hrows as [|raw r csv rs Hd _ IH]; [reflexivity |].
    simpl. rewrite IH. destruct Hd as (_ & -> & -> & -> & -> & _). reflexivity.
  - intros c. rewrite Hcols, elem_of_app, elem_of_dropna_columns. tauto.
Qed.

Lemma load_data_frame_witness :
  rows sample_frame ≠ [] ∧
  length (rows sample_frame) = length sample_csv ∧
  map (λ r, (temperature r, humidity r, wind r, rain r)) (rows sample_frame)
  = map (λ r, (raw_temperature r, raw_humidity r, raw_wind r, raw_rain r))
        sample_csv ∧
  (∀ c, c ∈ columns sample_frame <->
        c ∈ derived_columns ∨
        ∃ cell, (c, cell) ∈ csv_columns ∧ ∃ r, r ∈ sample_csv ∧ cell r = true).
Proof.
  apply (load_data_frame Iso8601.parse sample_csv sample_frame). reflexivity.
Defined.

(** ** The default date range *)













(** ** The total rainfall and the monthly totals *)








(** ** Wet months are never all the months *)




Lemma StronglySorted_sublist {A} (R : A -> A -> Prop) (l k : list A) :
  l `sublist_of` k -> StronglySorted R k -> StronglySorted R l.
Proof.
  induction 1 as [| x l k Hsub IH | x l k Hsub IH]; intros Hk.
  - constructor.
  - apply StronglySorted_inv in Hk as [Hk Hall].
    constructor; [by apply IH |].
    apply Forall_forall. intros y Hy. rewrite Forall_forall in Hall.
    apply Hall. by eapply elem_of_sublist.
  - apply StronglySorted_inv in Hk as [Hk _]. by apply IH.
Qed.




(** ** Humidity by month type *)







(** ** What a pivot holds *)

Lemma nanmean_is_Some (l : list (option Q)) :
  is_Some (nanmean l) <-> ∃ v, Some v ∈ l.
Proof.
  unfold nanmean. split.
  - intros H. destruct (dropna l) as [|v vs] eqn:E.
    + by destruct H.
    + exists v. assert (Hv : v ∈ dropna l) by (rewrite E; apply list_elem_of_here).
      unfold dropna in Hv. apply list_elem_of_omap in Hv as (c & Hc & Hcv).
      simpl in Hcv. by subst c.
  - intros [v Hv].
    assert (Hin : v ∈ dropna l).
    { unfold dropna. apply list_elem_of_omap. by exists (Some v). }
    destruct (dropna l); [by apply elem_of_nil in Hin | by eexists].
Qed.

Lemma filter_none {A} (f : A -> bool) (l : list A) :
  Forall (λ x, f x = false) l -> List.filter f l = [].
Proof.
  induction 1 as [|x l Hx _ IH]; [reflexivity |]. simpl. by rewrite Hx.
Qed.

Section PivotFacts.

Context {I C : Type} `{EqDecision I, EqDecision C}.
Variables (iltb ieqb : I -> I -> bool) (cltb ceqb : C -> C -> bool).
Variable show : C -> string.
Variables (index : Row -> option I) (cols : Row -> option C).
Variable values : Row -> option Q.
Hypothesis ieqb_eq : ∀ a b, ieqb a b = true <-> a = b.
Hypothesis ceqb_eq : ∀ a b, ceqb a b = true <-> a = b.

Local Notation "'cell_mean''" := (cell_mean ieqb ceqb index cols values).
Local Notation "'pivot_table''" :=
  (pivot_table iltb ieqb cltb ceqb index cols values).

Lemma in_cell_spec (i : I) (c : C) (r : Row) :
  in_cell ieqb ceqb index cols i c r = true
  <-> index r = Some i ∧ cols r = Some c.
Proof using All.
  unfold in_cell. destruct (index r) as [i'|], (cols r) as [c'|];
    try (split; [discriminate | intros [? ?]; discriminate]).
  rewrite andb_true_iff, ieqb_eq, ceqb_eq.
  split; [by intros [-> ->] | by intros [[= ->] [= ->]]].
Qed.

Lemma cell_mean_spec (df : list Row) (i : I) (c : C) :
  cell_mean' df i c
  = nanmean (map values (filter (λ r, index r = Some i ∧ cols r = Some c) df)).
Proof using All.
  unfold cell_mean. do 2 f_equal. apply filter_bool_prop.
  intros r. apply in_cell_spec.
Qed.

Lemma cell_mean_is_Some (df : list Row) (i : I) (c : C) :
  is_Some (cell_mean' df i c)
  <-> ∃ r, r ∈ df ∧ index r = Some i ∧ cols r = Some c ∧ is_Some (values r).
Proof using All.
  rewrite cell_mean_spec, nanmean_is_Some. split.
  - intros (v & Hv). apply list_elem_of_In, in_map_iff in Hv as (r & Hrv & Hr).
    apply list_elem_of_In, list_elem_of_filter in Hr as [[Hi Hc] Hr].
    exists r. by rewrite Hrv.
  - intros (r & Hr & Hi & Hc & [v Hv]). exists v.
    apply list_elem_of_In, in_map_iff. exists r. split; [exact Hv |].
    apply list_elem_of_In, list_elem_of_filter. by split.
Qed.

Lemma elem_of_observed (df : list Row) (i : I) (c : C) :
  (i, c) ∈ observed ieqb ceqb index cols values df
  <-> ∃ r, r ∈ df ∧ index r = Some i ∧ cols r = Some c ∧ is_Some (values r).
Proof using All.
  unfold observed. rewrite list_elem_of_omap. split.
  - intros (r & Hr & Hobs).
    destruct (index r) as [i'|] eqn:Hi; [| discriminate].
    destruct (cols r) as [c'|] eqn:Hc; [| discriminate].
    destruct (cell_mean' df i' c') as [mu|] eqn:Hmu; [| discriminate].
    injection Hobs as <- <-. apply cell_mean_is_Some. by rewrite Hmu.
  - intros (r & Hr & Hi & Hc & Hv). exists r. split; [exact Hr |].
    rewrite Hi, Hc.
    assert (Hsome : is_Some (cell_mean' df i c)).
    { apply cell_mean_is_Some. by exists r. }
    by destruct Hsome as [mu ->].
Qed.

Lemma elem_of_pivot_columns (df : list Row) (c : C) :
  c ∈ p_columns (pivot_table' df)
  <-> ∃ r, r ∈ df ∧ cols r = Some c ∧ is_Some (index r) ∧ is_Some (values r).
Proof using All.
  simpl. rewrite (elem_of_sorted_keys cltb ceqb ceqb_eq).
  rewrite list_elem_of_In, in_map_iff. split.
  - intros ([i c'] & <- & Hic).
    apply list_elem_of_In, elem_of_observed in Hic as (r & Hr & Hi & Hc & Hv).
    exists r. rewrite Hi. eauto.
  - intros (r & Hr & Hc & [i Hi] & Hv). exists (i, c). split; [reflexivity |].
    apply list_elem_of_In, elem_of_observed. by exists r.
Qed.

Lemma elem_of_pivot_index (df : list Row) (i : I) :
  i ∈ p_index (pivot_table' df)
  <-> ∃ r, r ∈ df ∧ index r = Some i ∧ is_Some (cols r) ∧ is_Some (values r).
Proof using All.
  simpl. rewrite (elem_of_sorted_keys iltb ieqb ieqb_eq).
  rewrite list_elem_of_In, in_map_iff. split.
  - intros ([i' c] & <- & Hic).
    apply list_elem_of_In, elem_of_observed in Hic as (r & Hr & Hi & Hc & Hv).
    exists r. rewrite Hc. eauto.
  - intros (r & Hr & Hi & [c Hc] & Hv). exists (i, c). split; [reflexivity |].
    apply list_elem_of_In, elem_of_observed. by exists r.
Qed.

Lemma existsb_ceqb (l : C) (cs : list C) :
  existsb (ceqb l) cs = true <-> l ∈ cs.
Proof using All.
  rewrite existsb_exists, list_elem_of_In. split.
  - intros (x & Hx & Hlx). apply ceqb_eq in Hlx. by subst.
  - intros Hl. exists l. split; [exact Hl | by apply ceqb_eq].
Qed.

Lemma nth_position {B} (f : C -> B) (d : B) (l : C) (cs : list C) :
  l ∈ cs -> nth (position ceqb l cs) (map f cs) d = f l.
Proof using All.
  induction cs as [|c cs IH]; intros Hl; [by apply elem_of_nil in Hl |].
  simpl. destruct (ceqb l c) eqn:E.
  - apply ceqb_eq in E. by subst.
  - apply elem_of_cons in Hl as [-> | Hl]; [| by apply IH].
    assert (ceqb c c = true) by (by apply ceqb_eq). congruence.
Qed.

Lemma select_pivot_inr (labels : list C) (df : list Row) :
  (∀ l, l ∈ labels ->
        ∃ r, r ∈ df ∧ cols r = Some l ∧ is_Some (index r) ∧ is_Some (values r)) ->
  select_columns ceqb show labels (pivot_table' df)
  = inr (mkPivot (p_index (pivot_table' df)) labels
           (map (λ i, map (cell_mean' df i) labels) (p_index (pivot_table' df)))).
Proof using All.
  intros Hall. unfold select_columns.
  assert (Hin : ∀ l, l ∈ labels -> l ∈ p_columns (pivot_table' df)).
  { intros l Hl. by apply elem_of_pivot_columns, Hall. }
  rewrite filter_none.
  2:{ apply Forall_forall. intros l Hl. apply negb_false_iff.
      by apply existsb_ceqb, Hin. }
  unfold ok. do 2 f_equal. cbn [p_values p_index pivot_table].
  rewrite map_map. apply map_ext. intros i.
  apply map_ext_in. intros l Hl. apply nth_position.
  apply (Hin l). by apply list_elem_of_In.
Qed.

Lemma select_pivot_inl (labels : list C) (df : list Row) (l : C) :
  l ∈ labels ->
  ¬ (∃ r, r ∈ df ∧ cols r = Some l ∧ is_Some (index r) ∧ is_Some (values r)) ->
  ∃ missing,
    select_columns ceqb show labels (pivot_table' df) = inl (KeyError missing).
Proof using All.
  intros Hl Hno. eapply select_columns_inl; [exact Hl |].
  apply not_true_iff_false. intros H. apply Hno.
  by apply elem_of_pivot_columns, existsb_ceqb.
Qed.

End PivotFacts.

#[global] Instance DowCell_eq_dec : EqDecision DowCell.
Proof. solve_decision. Defined.

Lemma dow_eqb_eq (a b : DowCell) : dow_eqb a b = true <-> a = b.
Proof.
  destruct a as [i|s], b as [j|t]; simpl;
    try (split; [discriminate | intros [=]]).
  - rewrite Z.eqb_eq. split; [by intros -> | by intros [= ->]].
  - rewrite String.eqb_eq. split; [by intros -> | by intros [= ->]].
Qed.

(** X10: the hour-by-day heatmap is produced when every day name of the
    template occurs in a row with an hour and a filled temperature.  Its
    columns are then the template, Monday first; its rows are the hours that
    occur with a filled temperature, ascending; and each cell is the mean
    temperature of the rows of that hour and day, missing when there is none.
    A day name without such a row makes the selection raise [KeyError]. *)
Theorem heatmap_hour_day_table (df : list Row) :
  ((∀ d, d ∈ day_names ->
         ∃ r, r ∈ df ∧ day_of_week r = DowName d ∧
              is_Some (hour r) ∧ is_Some (temperature r)) ->
   ∃ t, heatmap_hour_day df = inr t ∧
        p_columns t = days_order ∧
        StronglySorted Z.lt (p_index t) ∧
        (∀ h, h ∈ p_index t <->
              ∃ r, r ∈ df ∧ hour r = Some h ∧ is_Some (temperature r)) ∧
        p_values t
        = map (λ h, map (λ d, nanmean (map temperature
                                (filter (λ r, hour r = Some h ∧ day_of_week r = d)
                                        df)))
                        days_order)
              (p_index t)) ∧
  (∀ d, d ∈ day_names ->
        ¬ (∃ r, r ∈ df ∧ day_of_week r = DowName d ∧
                is_Some (hour r) ∧ is_Some (temperature r)) ->
        ∃ missing, heatmap_hour_day df = inl (KeyError missing)).
Proof.
  unfold heatmap_hour_day. split.
  - intros Hall. eexists. split.
    + apply (select_pivot_inr _ _ _ _ _ _ _ _ Z.eqb_eq dow_eqb_eq).
      intros l Hl. unfold days_order in Hl.
      apply list_elem_of_In, in_map_iff in Hl as (d & <- & Hd).
      apply list_elem_of_In in Hd.
      destruct (Hall d Hd) as (r & Hr & Hday & Hh & Ht).
      exists r. by rewrite Hday.
    + cbn [p_columns p_index p_values]. split; [reflexivity |].
      split; [apply month_keys_sorted |]. split.
      * intros h.
        rewrite (elem_of_pivot_index Z.ltb Z.eqb dow_ltb dow_eqb dow_label
                   _ _ _ Z.eqb_eq dow_eqb_eq df h).
        split; intros (r & Hr & Hh & Hc & Ht); exists r; eauto.
      * apply map_ext. intros h. apply map_ext. intros d.
        rewrite (cell_mean_spec Z.ltb Z.eqb dow_ltb dow_eqb dow_label
                   _ _ _ Z.eqb_eq dow_eqb_eq).
        do 2 f_equal. apply list_filter_iff. intros r.
        split; [by intros [? [= ->]] | by intros [? ->]].
  - intros d Hd Hno.
    apply (select_pivot_inl _ _ _ _ _ _ _ _ Z.eqb_eq dow_eqb_eq _ _ (DowName d)).
    + unfold days_order. apply list_elem_of_In, in_map.
      by apply list_elem_of_In.
    + intros (r & Hr & [= Hc] & Hh & Ht). apply Hno. by exists r.
Qed.

Lemma heatmap_hour_day_table_witness :
  (∃ t, heatmap_hour_day (assign_time_features full_year_df) = inr t ∧
        p_columns t = days_order) ∧
  (∃ missing,
     heatmap_hour_day (assign_time_features monday_wednesday_df)
     = inl (KeyError missing)).
Proof.
  split.
  - destruct (proj1 (heatmap_hour_day_table (assign_time_features full_year_df)))
      as (t & Ht & Hcols & _).
    + intros d Hd. apply Exists_exists. revert d Hd. apply Forall_forall.
      apply (bool_decide_unpack _). vm_compute. exact I.
    + exists t. split; [exact Ht | exact Hcols].
  - apply (proj2 (heatmap_hour_day_table
                    (assign_time_features monday_wednesday_df)) "Tuesday").
    + vm_compute. apply list_elem_of_further, list_elem_of_here.
    + intros H. apply Exists_exists in H. revert H.
      apply (bool_decide_unpack _). vm_compute. exact I.
Defined.

(** X11: the day-by-month heatmap is produced when every month name of the
    template occurs in a row with a filled temperature.  Its columns are
    then the template, January first; its rows are the day labels that occur
    with a month name and a filled temperature; and each cell is the mean
    temperature of the rows of that day and month, missing when there is
    none.  A month name without such a row makes the selection raise
    [KeyError]. *)
Theorem heatmap_day_month_table (df : list Row) :
  ((∀ m, m ∈ month_names ->
         ∃ r, r ∈ df ∧ month_name r = Some m ∧ is_Some (temperature r)) ->
   ∃ t, heatmap_day_month df = inr t ∧
        p_columns t = months_order ∧
        (∀ d, d ∈ p_index t <->
              ∃ r, r ∈ df ∧ day_of_week r = d ∧
                   is_Some (month_name r) ∧ is_Some (temperature r)) ∧
        p_values t
        = map (λ d, map (λ m, nanmean (map temperature
                                (filter (λ r, day_of_week r = d ∧
                                              month_name r = Some m) df)))
                        months_order)
              (p_index t)) ∧
  (∀ m, m ∈ month_names ->
        ¬ (∃ r, r ∈ df ∧ month_name r = Some m ∧ is_Some (temperature r)) ->
        ∃ missing, heatmap_day_month df = inl (KeyError missing)).
Proof.
  unfold heatmap_day_month. split.
  - intros Hall. eexists. split.
    + apply (select_pivot_inr _ _ _ _ _ _ _ _ dow_eqb_eq String.eqb_eq).
      intros m Hm. destruct (Hall m Hm) as (r & Hr & Hmonth & Ht).
      exists r. eauto.
    + cbn [p_columns p_index p_values]. split; [reflexivity |]. split.
      * intros d.
        rewrite (elem_of_pivot_index dow_ltb dow_eqb String.ltb String.eqb id
                   _ _ _ dow_eqb_eq String.eqb_eq df d).
        split.
        -- intros (r & Hr & [= Hd] & Hc & Ht). exists r. eauto.
        -- intros (r & Hr & Hd & Hc & Ht). exists r. rewrite Hd. eauto.
      * apply map_ext. intros d. apply map_ext. intros m.
        rewrite (cell_mean_spec dow_ltb dow_eqb String.ltb String.eqb id
                   _ _ _ dow_eqb_eq String.eqb_eq).
        do 2 f_equal. apply list_filter_iff. intros r.
        split; [by intros [[= ->] ?] | by intros [-> ?]].
  - intros m Hm Hno.
    apply (select_pivot_inl _ _ _ _ _ _ _ _ dow_eqb_eq String.eqb_eq _ _ m Hm).
    intros (r & Hr & Hc & _ & Ht). apply Hno. by exists r.
Qed.

Lemma heatmap_day_month_table_witness :
  (∃ t, heatmap_day_month (assign_time_features full_year_df) = inr t ∧
        p_columns t = months_order) ∧
  (∃ missing,
     heatmap_day_month (assign_time_features monday_wednesday_df)
     = inl (KeyError missing)).
Proof.
  split.
  - destruct (proj1 (heatmap_day_month_table (assign_time_features full_year_df)))
      as (t & Ht & Hcols & _).
    + intros m Hm. apply Exists_exists. revert m Hm. apply Forall_forall.
      apply (bool_decide_unpack _). vm_compute. exact I.
    + exists t. split; [exact Ht | exact Hcols].
  - apply (proj2 (heatmap_day_month_table
                    (assign_time_features monday_wednesday_df)) "March").
    + vm_compute. do 2 apply list_elem_of_further. apply list_elem_of_here.
    + intros H. apply Exists_exists in H. revert H.
      apply (bool_decide_unpack _). vm_compute. exact I.
Defined.

(** ** Aggregates computed after the assignments *)

Lemma monthly_rain_map (f : Row -> Row) (df : list Row) :
  (∀ r, month (f r) = month r) -> (∀ r, rain (f r) = rain r) ->
  monthly_rain (map f df) = monthly_rain df.
Proof.
  intros Hmonth Hrain. unfold monthly_rain, groupby.
  rewrite !map_map.
  rewrite (map_ext (λ x, month (f x)) month) by exact Hmonth.
  apply map_ext. intros k. simpl. f_equal. f_equal.
  induction df as [|r df IH]; [reflexivity |]. simpl.
  rewrite Hmonth. destruct (month r =? k); simpl; [| exact IH].
  by rewrite Hrain, IH.
Qed.

Lemma omap_map_ext {A B} (F F' : A -> option B) (f : A -> A) (l : list A) :
  (∀ r, F' (f r) = F r) -> omap F' (map f l) = omap F l.
Proof.
  intros H. induction l as [|r l IH]; [reflexivity |].
  cbn. by rewrite H, IH.
Qed.

Section PivotMap.

Context {I C : Type}.
Variables (iltb ieqb : I -> I -> bool) (cltb ceqb : C -> C -> bool).
Variables (index : Row -> option I) (cols : Row -> option C).
Variable values : Row -> option Q.
Variable f : Row -> Row.
Hypothesis f_index : ∀ r, index (f r) = index r.
Hypothesis f_cols : ∀ r, cols (f r) = cols r.
Hypothesis f_values : ∀ r, values (f r) = values r.

Lemma cell_mean_map (df : list Row) (i : I) (c : C) :
  cell_mean ieqb ceqb index cols values (map f df) i c
  = cell_mean ieqb ceqb index cols values df i c.
Proof using All.
  unfold cell_mean. f_equal.
  induction df as [|r df IH]; [reflexivity |]. simpl.
  assert (Hcell : in_cell ieqb ceqb index cols i c (f r)
                  = in_cell ieqb ceqb index cols i c r).
  { unfold in_cell. by rewrite f_index, f_cols. }
  rewrite Hcell. destruct (in_cell ieqb ceqb index cols i c r); simpl;
    [| exact IH].
  by rewrite f_values, IH.
Qed.

Lemma pivot_table_map (df : list Row) :
  pivot_table iltb ieqb cltb ceqb index cols values (map f df)
  = pivot_table iltb ieqb cltb ceqb index cols values df.
Proof using All.
  assert (Hobs : observed ieqb ceqb index cols values (map f df)
                 = observed ieqb ceqb index cols values df).
  { unfold observed. apply omap_map_ext. intros r.
    rewrite f_index, f_cols.
    destruct (index r) as [i|], (cols r) as [c|]; try reflexivity.
    by rewrite cell_mean_map. }
  unfold pivot_table. rewrite Hobs. f_equal.
  apply map_ext. intros i. apply map_ext. intros c. apply cell_mean_map.
Qed.

End PivotMap.

Lemma assign_both_as_map (df : list Row) :
  assign_time_features (assign_MonthType df)
  = map (λ r, set_MonthType (month_type (wet_months df) (month r)) r)
        (assign_time_features df).
Proof.
  unfold assign_time_features, assign_MonthType. rewrite !map_map.
  apply map_ext. reflexivity.
Qed.

(** X12: writing the MonthType column changes no later aggregate: the
    monthly rainfall totals and both heatmaps, which the script computes on
    the frame after the assignment, are what they are on the frame before
    it; and after all four assignments every row still holds its timestamp,
    measurements, month, year, date and season. *)
Theorem assignments_keep_aggregates (df : list Row) :
  monthly_rainfall (assign_MonthType df) = monthly_rainfall df ∧
  heatmap_hour_day (assign_time_features (assign_MonthType df))
  = heatmap_hour_day (assign_time_features df) ∧
  heatmap_day_month (assign_time_features (assign_MonthType df))
  = heatmap_day_month (assign_time_features df) ∧
  map (λ r, (time r, temperature r, humidity r, wind r, rain r,
             month r, year r, date r, season r))
      (assign_time_features (assign_MonthType df))
  = map (λ r, (time r, temperature r, humidity r, wind r, rain r,
               month r, year r, date r, season r)) df.
Proof.
  split; [| split; [| split]].
  - unfold monthly_rainfall, assign_MonthType. by apply monthly_rain_map.
  - unfold heatmap_hour_day. rewrite assign_both_as_map.
    by rewrite pivot_table_map.
  - unfold heatmap_day_month. rewrite assign_both_as_map.
    by rewrite pivot_table_map.
  - unfold assign_time_features, assign_MonthType. rewrite !map_map.
    apply map_ext. reflexivity.
Qed.

(** ** Key metrics *)







(** ** Recent conditions *)

Lemma insert_desc_last {A} (e : nat * A) (l : list (nat * A)) :
  Forall (λ y, label_lt e y) l -> insert_desc e l = (l ++ [e])%list.
Proof.
  induction 1 as [|y l Hy _ IH]; [reflexivity |]. simpl.
  unfold label_lt in Hy.
  destruct (Nat.ltb_spec (fst y) (fst e)); [lia |]. by rewrite IH.
Qed.

Lemma sort_index_desc_ascending {A} (l : list (nat * A)) :
  StronglySorted label_lt l -> sort_index_desc l = rev l.
Proof.
  induction 1 as [|e l _ IH Hall]; [reflexivity |].
  change (sort_index_desc (e :: l)) with (insert_desc e (sort_index_desc l)).
  rewrite IH. simpl rev. apply insert_desc_last.
  apply Forall_forall. intros y Hy. rewrite Forall_forall in Hall.
  apply Hall. apply list_elem_of_In, in_rev. by apply list_elem_of_In.
Qed.

Lemma with_index_ascending_from {A} (n : nat) (l : list A) :
  StronglySorted label_lt (combine (seq n (length l)) l).
Proof.
  revert n. induction l as [|x l IH]; intros n; simpl; constructor; [apply IH |].
  apply Forall_forall. intros [i y] Hy. unfold label_lt. simpl.
  apply list_elem_of_In, in_combine_l, in_seq in Hy. lia.
Qed.

Lemma with_index_rows (df : list Row) : map snd (with_index df) = df.
Proof.
  unfold with_index. generalize 0%nat.
  induction df as [|r df IH]; intros n; [reflexivity |]. simpl. by rewrite IH.
Qed.

Lemma df_filtered_indexed_rows (l : list (nat * Row)) (date_range : list Date) :
  map snd (df_filtered_indexed l date_range) = df_filtered (map snd l) date_range.
Proof.
  destruct date_range as [|lo [|hi [|x rest]]]; try reflexivity. simpl.
  induction l as [|e l IH]; [reflexivity |]. simpl.
  destruct (in_range lo hi (snd e)); simpl; by rewrite IH.
Qed.

Lemma df_filtered_indexed_sublist (l : list (nat * Row)) (date_range : list Date) :
  df_filtered_indexed l date_range `sublist_of` l.
Proof.
  destruct date_range as [|lo [|hi [|x rest]]]; try reflexivity. simpl.
  induction l as [|e l IH]; [constructor |]. simpl.
  destruct (in_range lo hi (snd e)); [by apply sublist_skip | by apply sublist_cons].
Qed.

Lemma map_label_sorted {A B} (f : A -> B) (l : list (nat * A)) :
  StronglySorted label_lt l ->
  StronglySorted label_lt (map (λ e, (fst e, f (snd e))) l).
Proof.
  induction 1 as [|e l _ IH Hall]; simpl; constructor; [exact IH |].
  apply Forall_map. eapply Forall_impl; [exact Hall |]. by intros y Hy.
Qed.

Lemma df_tail_map {A B} (f : A -> B) (n : nat) (l : list A) :
  map f (df_tail n l) = df_tail n (map f l).
Proof. unfold df_tail. by rewrite skipn_map, length_map. Qed.

Lemma length_df_tail {A} (n : nat) (l : list A) :
  length (df_tail n l) = Nat.min n (length l).
Proof. unfold df_tail. rewrite length_skipn. lia. Qed.

(** X14: the "Recent Weather Conditions" table shows the last five rows of
    the filtered frame, or all of them when there are fewer, the latest row
    first: sorting the tail by descending row label reverses it, because the
    filter keeps the labels ascending. *)
Theorem recent_conditions_latest_first (df : list Row) (date_range : list Date) :
  map snd (recent_conditions (df_filtered_indexed (with_index df) date_range))
  = rev (df_tail 5 (map recent_columns (df_filtered df date_range))) ∧
  length (recent_conditions (df_filtered_indexed (with_index df) date_range))
  = Nat.min 5 (length (df_filtered df date_range)).
Proof.
  assert (Hsorted : StronglySorted label_lt
            (df_tail 5 (map (λ e, (fst e, recent_columns (snd e)))
                            (df_filtered_indexed (with_index df) date_range)))).
  { eapply StronglySorted_sublist; [apply sublist_drop |].
    apply map_label_sorted.
    eapply StronglySorted_sublist; [apply df_filtered_indexed_sublist |].
    apply with_index_ascending_from. }
  unfold recent_conditions. rewrite (sort_index_desc_ascending _ Hsorted).
  assert (Hrows : map snd (map (λ e, (fst e, recent_columns (snd e)))
                              (df_filtered_indexed (with_index df) date_range))
                  = map recent_columns (df_filtered df date_range)).
  { rewrite map_map. simpl.
    rewrite <- (with_index_rows df) at 2.
    rewrite <- df_filtered_indexed_rows. by rewrite map_map. }
  split.
  - by rewrite map_rev, df_tail_map, Hrows.
  - rewrite length_rev, length_df_tail. f_equal.
    apply (f_equal length) in Hrows. rewrite !length_map in Hrows.
    rewrite length_map. exact Hrows.
Qed.

(** ** Labels of the time features *)

Lemma dt_dayofweek_range (t : Timestamp) : 0 <= dt_dayofweek t < 7.
Proof. unfold dt_dayofweek. apply Z.mod_pos_bound. lia. Qed.

Lemma dt_day_name_template (t : Timestamp) : dt_day_name t ∈ day_names.
Proof.
  unfold dt_day_name. pose proof (dt_dayofweek_range t) as Hr.
  assert (Hcases : dt_dayofweek t ∈ [0; 1; 2; 3; 4; 5; 6]).
  { rewrite !elem_of_cons. lia. }
  generalize dependent (dt_dayofweek t). intros i _ Hi.
  repeat (apply elem_of_cons in Hi as [-> | Hi]);
    [.. | by apply elem_of_nil in Hi];
    apply list_elem_of_In; vm_compute; auto 20.
Qed.

Lemma dt_month_name_template (t : Timestamp) :
  1 <= ts_month t <= 12 -> dt_month_name t ∈ month_names.
Proof.
  unfold dt_month_name. intros Hm.
  assert (Hcases : ts_month t ∈ [1; 2; 3; 4; 5; 6; 7; 8; 9; 10; 11; 12]).
  { rewrite !elem_of_cons. lia. }
  generalize dependent (ts_month t). intros m _ Hi.
  repeat (apply elem_of_cons in Hi as [-> | Hi]);
    [.. | by apply elem_of_nil in Hi];
    apply list_elem_of_In; vm_compute; auto 20.
Qed.

(** X15: on the frame with its time features assigned, every column the
    hour-by-day pivot builds is a day name of the Monday-first template, so
    the selection of the template drops no observed day; and when every
    timestamp has a month between 1 and 12, every column the day-by-month
    pivot builds is a month name of the January-first template. *)
Theorem pivot_columns_in_template (df : list Row) :
  (∀ c, c ∈ p_columns (pivot_table Z.ltb Z.eqb dow_ltb dow_eqb
                         hour (λ r, Some (day_of_week r)) temperature
                         (assign_time_features df)) ->
        c ∈ days_order) ∧
  (Forall (λ r, 1 <= ts_month (time r) <= 12) df ->
   ∀ c, c ∈ p_columns (pivot_table dow_ltb dow_eqb String.ltb String.eqb
                         (λ r, Some (day_of_week r)) month_name temperature
                         (assign_time_features df)) ->
        c ∈ months_order).
Proof.
  split.
  - intros c Hc.
    apply (elem_of_pivot_columns Z.ltb Z.eqb dow_ltb dow_eqb dow_label
             _ _ _ Z.eqb_eq dow_eqb_eq) in Hc as (r & Hr & [= <-] & _).
    unfold assign_time_features in Hr.
    apply list_elem_of_In, in_map_iff in Hr as (r0 & <- & _). simpl.
    unfold days_order. apply list_elem_of_In, in_map, list_elem_of_In.
    apply dt_day_name_template.
  - intros Hvalid c Hc.
    apply (elem_of_pivot_columns dow_ltb dow_eqb String.ltb String.eqb id
             _ _ _ dow_eqb_eq String.eqb_eq) in Hc as (r & Hr & Hm & _).
    unfold assign_time_features in Hr.
    apply list_elem_of_In, in_map_iff in Hr as (r0 & <- & Hr0).
    simpl in Hm. injection Hm as <-.
    apply dt_month_name_template.
    rewrite Forall_forall in Hvalid. by apply Hvalid, list_elem_of_In.
Qed.

Lemma pivot_columns_in_template_witness :
  Forall (λ c, c ∈ months_order)
    (p_columns (pivot_table dow_ltb dow_eqb String.ltb String.eqb
                  (λ r, Some (day_of_week r)) month_name temperature
                  (assign_time_features sample_df))).
Proof.
  apply Forall_forall.
  apply (proj2 (pivot_columns_in_template sample_df)).
  apply (bool_decide_unpack _). vm_compute. exact I.
Defined.

(** ** Which error a load raises *)

Lemma traverse_first_error {A B} (f : A -> Result B) (pre post : list A)
    (a : A) (e : Error) :
  Forall (λ x, ∃ b, f x = inr b) pre -> f a = inl e ->
  traverse f (pre ++ a :: post) = inl e.
Proof.
  intros Hpre Ha. induction Hpre as [|x pre [b Hb] _ IH]; simpl;
    unfold mbind, result_bind, rbind.
  - by rewrite Ha.
  - by rewrite Hb, IH.
Qed.

(** X16: the [time] column is converted before anything else: when a time
    cell does not parse, the load raises [ParseError] with the text of the
    first such cell in the file's order, whatever the sunrise and sunset
    cells hold. *)
Theorem load_data_first_bad_time (parse : string -> option Timestamp)
    (pre post : list RawRow) (r : RawRow) :
  Forall (λ x, parse (raw_time x) ≠ None) pre ->
  parse (raw_time r) = None ->
  load_data parse (pre ++ r :: post) = inl (ParseError (raw_time r)).
Proof.
  intros Hpre Hr. unfold load_data.
  rewrite has_time_column, bool_decide_eq_false_2 by (by destruct pre).
  simpl negb. cbv iota. rewrite map_app. simpl map.
  rewrite (traverse_first_error _ _ _ _ (ParseError (raw_time r))).
  - reflexivity.
  - apply Forall_map. eapply Forall_impl; [exact Hpre |].
    intros x Hx. simpl in *. unfold to_datetime.
    destruct (parse (raw_time x)) as [t|]; [by exists t | by destruct Hx].
  - unfold to_datetime. by rewrite Hr.
Qed.

Lemma load_data_first_bad_time_witness :
  load_data Iso8601.parse
    (sample_csv ++ sample_row "2024-02-30" None None None None
                :: [sample_row "never" None None None None])
  = inl (ParseError "2024-02-30").
Proof.
  apply (load_data_first_bad_time Iso8601.parse sample_csv
           [sample_row "never" None None None None]
           (sample_row "2024-02-30" None None None None)).
  - apply (bool_decide_unpack _). vm_compute. exact I.
  - reflexivity.
Defined.
